(** * one_clicks_info: listing DigitalOcean 1-Click applications

    A shallow embedding of [plugins/modules/one_clicks_info.py] and the
    properties of its result shaping.

    The Python module reads its parameters from a dictionary, asks the
    remote catalogue for the list of 1-Click applications once, optionally
    keeps the entries of one type, and reports through [exit_json] or
    [fail_json], both of which print a result and leave the interpreter by
    raising [SystemExit].  Dictionaries are finite maps, the result
    keywords are a record of optional fields, and the effects (the remote
    call, the printed results, the exceptions) are threaded through a small
    monad. *)

From Stdlib Require Import ZArith Ascii String List.
From stdpp Require Import gmap strings list fin_maps.

Local Open Scope string_scope.

(** ** Python values and dictionaries *)

(** The values an entry of the catalogue or an attribute of the remote
    error may hold: Python's [None], booleans, integers and strings. *)
Inductive pyval : Type :=
| PNone
| PBool (b : bool)
| PInt (n : Z)
| PStr (s : string).

#[global] Instance pyval_eq_dec : EqDecision pyval.
Proof. solve_decision. Defined.

(** [d.get(k)]: the value stored under [k], [None] when there is none. *)
Definition dict_get (d : gmap string pyval) (k : string) : pyval :=
  default PNone (d !! k).

(** An application entry is a dictionary, usually of a [slug] and a [type]. *)
Abbreviation entry := (gmap string pyval).

(** [v == click_type] for a string-typed module parameter [click_type]
    ([None] when the parameter is not given).  A string equals only the
    same string, [None] equals only [None]. *)
Definition py_eq (v : pyval) (click_type : option string) : bool :=
  match v, click_type with
  | PStr s, Some t => String.eqb s t
  | PNone, None => true
  | _, _ => false
  end.

(** ** [str.capitalize] on ASCII text *)

Definition ascii_upper (c : ascii) : ascii :=
  let n := nat_of_ascii c in
  if (97 <=? n)%nat && (n <=? 122)%nat then ascii_of_nat (n - 32) else c.

Definition ascii_lower (c : ascii) : ascii :=
  let n := nat_of_ascii c in
  if (65 <=? n)%nat && (n <=? 90)%nat then ascii_of_nat (n + 32) else c.

Fixpoint lower (s : string) : string :=
  match s with
  | EmptyString => EmptyString
  | String c r => String (ascii_lower c) (lower r)
  end.

(** The first character in upper case, the others in lower case.  Bytes
    outside the ASCII letters are left as they are. *)
Definition capitalize (s : string) : string :=
  match s with
  | EmptyString => EmptyString
  | String c r => String (ascii_upper c) (lower r)
  end.

(** ** Module parameters, client, keywords of a result *)

(** [AnsibleModule]: the validated parameters of the invocation, all of
    them strings here ([token], [state], [type]); [params.get(k)] is the
    lookup, [None] standing for Python's [None]. *)
Record AnsibleModule : Type := {
  params : gmap string string
}.

(** The choices of the [type] option, from [argument_spec.update]. *)
Definition type_choices : list string := ["droplet"; "kubernetes"].

(** [pydo.Client(token=...)]. *)
Record Client : Type := {
  token : option string
}.

(** The object under [err.error] of an [HttpResponseError], with the
    attribute the handler reads from it. *)
Record error_body : Type := {
  message : pyval
}.

(** The attributes the handler reads from an [HttpResponseError]:
    [err.error], [err.status_code] and [err.reason].  [err.error] is
    [None] when no error could be read from the body of the response. *)
Record http_error : Type := {
  err_error : option error_body;
  status_code : pyval;
  reason : pyval
}.

(** The keyword arguments of [exit_json] and [fail_json]; [None] is a
    keyword that was not passed. *)
Record kwargs : Type := {
  changed : option bool;
  msg : pyval;
  one_clicks : option (list entry);
  error : option (gmap string pyval);
  exception : option (option string)
}.

(** ** Effects *)

(** The exceptions of a run.  [OtherError] stands for an exception of a
    class other than the three named, given by the name of its class. *)
Inductive exn : Type :=
| SystemExit (code : Z)
| HttpResponseError (err : http_error)
| AttributeError (what : string)
| OtherError (cls : string).

(** What an invocation does that can be observed from outside. *)
Inductive event : Type :=
| ClientCreated (c : Client)
| ListRequest (c : Client)
| ExitJson (k : kwargs)
| FailJson (k : kwargs).

(** A computation runs against the state [R] of the remote service, ends
    in a value or an exception, and leaves the events it caused. *)
Definition M (R A : Type) : Type := R -> (A + exn) * R * list event.

Definition ret {R A} (a : A) : M R A := fun r => (inl a, r, []).

Definition bind {R A B} (m : M R A) (f : A -> M R B) : M R B := fun r =>
  match m r with
  | (inl a, r', ev) =>
      let '(x, r'', ev') := f a r' in (x, r'', (ev ++ ev')%list)
  | (inr e, r', ev) => (inr e, r', ev)
  end.

Definition raise {R A} (e : exn) : M R A := fun r => (inr e, r, []).

Definition emit {R} (e : event) : M R unit := fun r => (inl tt, r, [e]).

Declare Scope py_scope.
Delimit Scope py_scope with py.
Notation "x <- c ;; k" := (bind c (fun x => k))
  (at level 100, c at next level, right associativity) : py_scope.
Notation "c ;; k" := (bind c (fun _ => k))
  (at level 100, right associativity) : py_scope.

(** [try: body  except HttpResponseError as err: handler].  Every other
    exception, [SystemExit] among them, passes through. *)
Definition try_except {R A} (body : M R A) (handler : http_error -> M R A)
  : M R A := fun r =>
  match body r with
  | (inr (HttpResponseError err), r', ev) =>
      let '(x, r'', ev') := handler err r' in (x, r'', (ev ++ ev')%list)
  | res => res
  end.

(** [module.exit_json] with keywords [k]: print the result, then [sys.exit(0)]. *)
Definition exit_json {R A} (k : kwargs) : M R A :=
  (emit (ExitJson k) ;; raise (SystemExit 0))%py.

(** [module.fail_json] with keywords [k]: print the result, then [sys.exit(1)]. *)
Definition fail_json {R A} (k : kwargs) : M R A :=
  (emit (FailJson k) ;; raise (SystemExit 1))%py.

(** ** The module *)

(** The outcome of [client.one_clicks.list()]: the decoded response,
    [None] for a response without a body, an [HttpResponseError] (the
    class the handler of [present] names), or an exception of another
    class, such as a transport error. *)
Inductive list_reply : Type :=
| Returns (one_clicks_info : gmap string (list entry))
| ReturnsNone
| Raises (err : http_error)
| RaisesOther (cls : string).

(** The outcome of an [import] at load time: done, or an [ImportError]
    with its formatted traceback. *)
Inductive import_result : Type :=
| Imported
| ImportFailed (traceback : string).

Record OneClickApplicationsInformation : Type := {
  module : AnsibleModule;
  client : Client;
  state : option string;
  type : option string
}.

(** [one_clicks_info.get(k)] for a response that is a dictionary or
    [None]. *)
Definition response_get {R} (one_clicks_info : option (gmap string (list entry)))
    (k : string) : M R (option (list entry)) :=
  match one_clicks_info with
  | Some d => ret (d !! k)
  | None => raise (AttributeError "get")
  end.

(** [err.error.message] for an [err.error] that is an object or [None]. *)
Definition error_message {R} (err : http_error) : M R pyval :=
  match err_error err with
  | Some body => ret (message body)
  | None => raise (AttributeError "message")
  end.

(** [s.capitalize()] for an attribute that is a string or [None]. *)
Definition str_capitalize {R} (s : option string) : M R string :=
  match s with
  | Some t => ret (capitalize t)
  | None => raise (AttributeError "capitalize")
  end.

(** [list(filter(lambda val: val.get("type") == click_type, one_clicks))]. *)
Definition filtered_clicks (click_type : option string)
    (one_clicks : list entry) : list entry :=
  List.filter (fun val => py_eq (dict_get val "type") click_type) one_clicks.

Section Module.
Context {remote : Type}.

(** The remote service: what one list request of a client returns in a
    state of the service, and the state it leaves. *)
Variable serve : Client -> remote -> list_reply * remote.

(** [ansible.module_utils.basic.missing_required_lib]. *)
Variable missing_required_lib : string -> string.

(** The two guarded imports at the top of the file. *)
Variable azure_import pydo_import : import_result.

Definition HAS_AZURE_LIBRARY : bool :=
  match azure_import with Imported => true | ImportFailed _ => false end.

Definition AZURE_LIBRARY_IMPORT_ERROR : option string :=
  match azure_import with Imported => None | ImportFailed tb => Some tb end.

Definition HAS_PYDO_LIBRARY : bool :=
  match pydo_import with Imported => true | ImportFailed _ => false end.

Definition PYDO_LIBRARY_IMPORT_ERROR : option string :=
  match pydo_import with Imported => None | ImportFailed tb => Some tb end.

(** [Client(token=...)]. *)
Definition new_Client (tok : option string) : M remote Client :=
  let c := {| token := tok |} in
  (emit (ClientCreated c) ;; ret c)%py.

(** [client.one_clicks.list()]: one request to the service. *)
Definition one_clicks_list (c : Client)
  : M remote (option (gmap string (list entry))) :=
  fun r =>
    match serve c r with
    | (Returns info, r') => (inl (Some info), r', [ListRequest c])
    | (ReturnsNone, r') => (inl None, r', [ListRequest c])
    | (Raises err, r') => (inr (HttpResponseError err), r', [ListRequest c])
    | (RaisesOther cls, r') => (inr (OtherError cls), r', [ListRequest c])
    end.

Definition present (self : OneClickApplicationsInformation) : M remote unit :=
  try_except
    (one_clicks_info <- one_clicks_list (client self) ;;
     one_clicks <- response_get one_clicks_info "1_clicks" ;;
     match one_clicks with
     | Some ((_ :: _) as one_clicks) =>
         let click_type := params (module self) !! "type" in
         match click_type with
         | Some (String _ _) =>
             let filtered_clicks := filtered_clicks click_type one_clicks in
             Type_ <- str_capitalize (type self) ;;
             exit_json
               {| changed := Some false;
                  msg := PStr ("Current " +:+ Type_ +:+ " 1-Click applications");
                  one_clicks := Some filtered_clicks;
                  error := None; exception := None |}
         | _ => ret tt
         end ;;
         exit_json
           {| changed := Some false;
              msg := PStr "Current 1-Click applications";
              one_clicks := Some one_clicks;
              error := None; exception := None |}
     | _ => ret tt
     end ;;
     fail_json
       {| changed := Some false;
          msg := PStr "Current 1-Click applications not found";
          one_clicks := None; error := None; exception := None |})%py
    (fun err =>
       (Message <- error_message err ;;
        let error : gmap string pyval :=
          {[ "Message" := Message;
             "Status Code" := status_code err;
             "Reason" := reason err ]} in
        fail_json
          {| changed := Some false;
             msg := dict_get error "Message";
             one_clicks := None; error := Some error;
             exception := None |})%py).

(** The class constructor. *)
Definition __init__ (module : AnsibleModule)
  : M remote OneClickApplicationsInformation :=
  (client <- new_Client (params module !! "token") ;;
   let self :=
     {| module := module;
        client := client;
        state := params module !! "state";
        type := params module !! "type" |} in
   (if bool_decide (state self = Some "present") then present self
    else ret tt) ;;
   ret self)%py.

(** [main], from the module that [AnsibleModule] built out of the
    argument specification and the task's arguments. *)
Definition main (module : AnsibleModule) : M remote unit :=
  ((if negb HAS_AZURE_LIBRARY then
      fail_json
        {| changed := None;
           msg := PStr (missing_required_lib "azure.core.exceptions");
           one_clicks := None; error := None;
           exception := Some AZURE_LIBRARY_IMPORT_ERROR |}
    else ret tt) ;;
   (if negb HAS_PYDO_LIBRARY then
      fail_json
        {| changed := None;
           msg := PStr (missing_required_lib "pydo");
           one_clicks := None; error := None;
           exception := Some PYDO_LIBRARY_IMPORT_ERROR |}
    else ret tt) ;;
   _ <- __init__ module ;;
   ret tt)%py.

End Module.

(** The results an invocation printed, in order. *)
Definition printed (ev : list event) : list kwargs :=
  omap (fun e => match e with
                 | ExitJson k | FailJson k => Some k
                 | _ => None
                 end) ev.

(** The result printed for a catalogue without entries. *)
Definition not_found : kwargs :=
  {| changed := Some false;
     msg := PStr "Current 1-Click applications not found";
     one_clicks := None; error := None; exception := None |}.

(** [name] occurs in [text]. *)
Definition mentions (name text : string) : Prop :=
  exists pre post, text = pre +:+ name +:+ post.

(** ** Examples *)

Definition netdata : entry :=
  {[ "slug" := PStr "netdata"; "type" := PStr "kubernetes" ]}.
Definition cpanel : entry :=
  {[ "slug" := PStr "cpanel"; "type" := PStr "droplet" ]}.

(** A service that always answers with the same reply. *)
Definition always (reply : list_reply) (c : Client) (r : unit)
  : list_reply * unit := (reply, r).

(** A service that counts the requests it has served and always answers
    with the same reply. *)
Definition counting (reply : list_reply) (c : Client) (n : nat)
  : list_reply * nat := (reply, S n).

(** A message in the style of Ansible's [missing_required_lib]. *)
Definition import_failure_message (lib : string) : string :=
  "Failed to import the required Python library (" +:+ lib
  +:+ "). Please read the module documentation and install it.".

(** The object the constructor builds for a module (without running it). *)
Definition self_of (m : AnsibleModule) : OneClickApplicationsInformation :=
  {| module := m;
     client := {| token := params m !! "token" |};
     state := params m !! "state";
     type := params m !! "type" |}.

Definition unauthorized : http_error :=
  {| err_error := Some {| message := PStr "Unable to authenticate you" |};
     status_code := PInt 401;
     reason := PStr "Unauthorized" |}.

(** An error response whose body is not JSON, as a gateway sends. *)
Definition bad_gateway : http_error :=
  {| err_error := None;
     status_code := PInt 502;
     reason := PStr "Bad Gateway" |}.

(** The replies [present] has a result for: a response, or an
    [HttpResponseError] whose [err.error] is there. *)
Definition handled (reply : list_reply) : bool :=
  match reply with
  | Returns _ => true
  | Raises err => bool_decide (is_Some (err_error err))
  | ReturnsNone | RaisesOther _ => false
  end.

(** ** What a run did *)

(** The clients that sent a list request, in order. *)
Definition requested (ev : list event) : list Client :=
  omap (fun e => match e with ListRequest c => Some c | _ => None end) ev.

(** The clients that were constructed, in order. *)
Definition created (ev : list event) : list Client :=
  omap (fun e => match e with ClientCreated c => Some c | _ => None end) ev.

(** The results printed through [exit_json]. *)
Definition exited (ev : list event) : list kwargs :=
  omap (fun e => match e with ExitJson k => Some k | _ => None end) ev.

(** The results printed through [fail_json]. *)
Definition failed (ev : list event) : list kwargs :=
  omap (fun e => match e with FailJson k => Some k | _ => None end) ev.

(** The samples of [msg] in the [RETURN] documentation of the module. *)
Definition RETURN_msg_samples : list string :=
  ["Current 1-Click applications";
   "Current Droplet 1-Click applications";
   "Current Kubernetes 1-Click applications";
   "Current 1-Click applications not found"].

(** A [type] parameter that passed the option's [choices]: not given, or
    one of them. *)
Definition valid_type (click_type : option string) : Prop :=
  match click_type with
  | Some t => t ∈ type_choices
  | None => True
  end.

#[global] Instance import_result_eq_dec : EqDecision import_result.
Proof. solve_decision. Defined.

(** Use an instance [H] of a theorem for a goal that states it with the
    definitions evaluated; what is left are the hypotheses of [H]. *)
Ltac instance_of H :=
  let Hi := fresh "Hi" in
  pose proof H as Hi; vm_compute in Hi |- *; apply Hi.

(** Close one case of a reply: take the hypotheses apart, use the
    equations between replies and between exceptions, and give the
    witnesses. *)
Ltac settle :=
  cbn; intros;
  repeat match goal with
         | H : ∃ _, _ |- _ => destruct H
         | H : _ ∧ _ |- _ => destruct H
         | H : _ ∨ _ |- _ => destruct H
         end;
  simplify_eq; try done;
  try (by match goal with
          | H : ∀ code, _ ≠ SystemExit code |- _ => edestruct H
          end);
  eauto 8.

(** ** Properties of the filter *)

Section Filter.
Implicit Types (t : string) (val : entry) (one_clicks : list entry).

(** The lambda of the filter holds of an entry exactly when the entry
    has a [type] and it is the string of the filter. *)
Lemma py_eq_type val t :
  py_eq (dict_get val "type") (Some t) = true ↔ val !! "type" = Some (PStr t).
Proof.
  unfold dict_get.
  destruct (val !! "type") as [[| b | n | s]|] eqn:E; simpl;
    try (split; [discriminate | congruence]).
  rewrite String.eqb_eq. split; congruence.
Qed.

Lemma py_eq_type_false val t :
  py_eq (dict_get val "type") (Some t) = false ↔ val !! "type" ≠ Some (PStr t).
Proof.
  rewrite <- py_eq_type. destruct (py_eq _ _); split; congruence.
Qed.

(** The code's filter is the list filter of that property. *)
Lemma filtered_clicks_filter t one_clicks :
  filtered_clicks (Some t) one_clicks
  = filter (λ val : entry, val !! "type" = Some (PStr t)) one_clicks.
Proof.
  unfold filtered_clicks.
  induction one_clicks as [| val l IH]; [reflexivity |].
  cbn [List.filter]. rewrite filter_cons.
  destruct (py_eq (dict_get val "type") (Some t)) eqn:E.
  - apply py_eq_type in E. rewrite decide_True by exact E. by f_equal.
  - apply py_eq_type_false in E. by rewrite decide_False.
Qed.

(** A subsequence of matching entries is a subsequence of the filtered
    list: nothing that matches is dropped, and the order is kept. *)
Lemma sublist_filter_max (P : entry → Prop) `{!∀ x, Decision (P x)}
    (l k : list entry) :
  l `sublist_of` k → Forall P l → l `sublist_of` filter P k.
Proof.
  induction 1 as [| x l k Hlk IH | x l k Hlk IH]; intros HP.
  - constructor.
  - apply Forall_cons in HP as [Hx HP].
    rewrite filter_cons_True by exact Hx. constructor. auto.
  - rewrite filter_cons. case_decide; [constructor |]; auto.
Qed.

(** When no entry matches, nothing is kept. *)
Lemma filtered_clicks_none t one_clicks :
  Forall (λ val : entry, val !! "type" ≠ Some (PStr t)) one_clicks →
  filtered_clicks (Some t) one_clicks = [].
Proof.
  unfold filtered_clicks.
  induction 1 as [| val l Hval _ IH]; [reflexivity |].
  cbn [List.filter]. apply py_eq_type_false in Hval. by rewrite Hval.
Qed.
End Filter.

(** C10: for every catalogue and every filter value, the filtered list is
    a subsequence of the catalogue (so in the catalogue's order), its
    members are exactly the entries of the catalogue whose [type] is the
    filter, every subsequence of such entries is a subsequence of it (no
    matching occurrence is dropped), and an entry without a [type] is
    never a member. *)
Theorem filtered_clicks_subsequence (t : string) (one_clicks : list entry) :
  filtered_clicks (Some t) one_clicks `sublist_of` one_clicks
  ∧ (∀ val : entry,
        val ∈ filtered_clicks (Some t) one_clicks
        ↔ val ∈ one_clicks ∧ val !! "type" = Some (PStr t))
  ∧ (∀ l : list entry,
        l `sublist_of` one_clicks →
        Forall (λ val : entry, val !! "type" = Some (PStr t)) l →
        l `sublist_of` filtered_clicks (Some t) one_clicks)
  ∧ (∀ val : entry,
        val !! "type" = None → val ∉ filtered_clicks (Some t) one_clicks).
Proof.
  rewrite filtered_clicks_filter.
  split; [apply sublist_filter |].
  split; [intros val; rewrite list_elem_of_filter; tauto |].
  split; [intros l Hl HP; by apply sublist_filter_max |].
  intros val Hnone [Hty _]%list_elem_of_filter. congruence.
Qed.

(** ** The definitions on small inputs *)

Example capitalize_droplet : capitalize "droplet" = "Droplet".
Proof. reflexivity. Qed.

Example capitalize_mixed : capitalize "kUBERNETES-1" = "Kubernetes-1".
Proof. reflexivity. Qed.

Example filtered_clicks_kubernetes :
  filtered_clicks (Some "kubernetes") [netdata; cpanel; netdata]
  = [netdata; netdata].
Proof. vm_compute. reflexivity. Qed.

Example filtered_clicks_untyped :
  filtered_clicks (Some "droplet")
    [({[ "slug" := PStr "npool" ]} : entry);
     {[ "slug" := PStr "okteto"; "type" := PNone ]};
     cpanel]
  = [cpanel].
Proof. vm_compute. reflexivity. Qed.

Example main_state_absent :
  main (always (Returns {[ "1_clicks" := [netdata] ]}))
    import_failure_message Imported Imported
    {| params := {[ "state" := "absent" ]} |} tt
  = (inl tt, tt, [ClientCreated {| token := None |}]).
Proof. vm_compute. reflexivity. Qed.

Example present_response_none :
  present (always ReturnsNone) (self_of {| params := ∅ |}) tt
  = (inr (AttributeError "get"), tt, [ListRequest {| token := None |}]).
Proof. vm_compute. reflexivity. Qed.

Example present_bad_gateway :
  present (always (Raises bad_gateway)) (self_of {| params := ∅ |}) tt
  = (inr (AttributeError "message"), tt, [ListRequest {| token := None |}]).
Proof. vm_compute. reflexivity. Qed.

(** ** Properties of [present] *)

Section Present.
Context {remote : Type}.
Variable serve : Client → remote → list_reply * remote.
Implicit Types (self : OneClickApplicationsInformation) (r : remote)
  (info : gmap string (list entry)) (cat : list entry) (t : string).

(** The run of [present] when the request returns a response: what the
    body does with the value under ["1_clicks"]. *)
Lemma present_returns self r info r' :
  serve (client self) r = (Returns info, r') →
  present serve self r =
    match info !! "1_clicks" with
    | Some ((_ :: _) as cat) =>
        match params (module self) !! "type" with
        | Some (String a s) =>
            match type self with
            | Some T =>
                (inr (SystemExit 0), r',
                 [ListRequest (client self);
                  ExitJson
                    {| changed := Some false;
                       msg := PStr ("Current " +:+ capitalize T
                                    +:+ " 1-Click applications");
                       one_clicks :=
                         Some (filtered_clicks (Some (String a s)) cat);
                       error := None; exception := None |}])
            | None =>
                (inr (AttributeError "capitalize"), r',
                 [ListRequest (client self)])
            end
        | _ =>
            (inr (SystemExit 0), r',
             [ListRequest (client self);
              ExitJson
                {| changed := Some false;
                   msg := PStr "Current 1-Click applications";
                   one_clicks := Some cat;
                   error := None; exception := None |}])
        end
    | _ =>
        (inr (SystemExit 1), r',
         [ListRequest (client self); FailJson not_found])
    end.
Proof.
  intros Hserve.
  unfold present, try_except, bind, one_clicks_list, response_get, ret.
  rewrite Hserve.
  destruct (info !! "1_clicks") as [[| e cat]|]; try reflexivity.
  destruct (params (module self) !! "type") as [[| a s]|]; try reflexivity.
  destruct (type self); reflexivity.
Qed.

(** The run of [present] when the request raises an [HttpResponseError]
    whose [err.error] is there. *)
Lemma present_raises self r err r' body :
  serve (client self) r = (Raises err, r') →
  err_error err = Some body →
  present serve self r =
    (inr (SystemExit 1), r',
     [ListRequest (client self);
      FailJson
        {| changed := Some false;
           msg := message body;
           one_clicks := None;
           error := Some {[ "Message" := message body;
                            "Status Code" := status_code err;
                            "Reason" := reason err ]};
           exception := None |}]).
Proof.
  intros Hserve Hbody.
  unfold present, try_except, bind, one_clicks_list, error_message.
  rewrite Hserve, Hbody. reflexivity.
Qed.

(** The run of [present] when the request raises an [HttpResponseError]
    whose [err.error] is [None]: the handler raises on [err.error.message]
    before it has printed anything. *)
Lemma present_raises_no_body self r err r' :
  serve (client self) r = (Raises err, r') →
  err_error err = None →
  present serve self r =
    (inr (AttributeError "message"), r', [ListRequest (client self)]).
Proof.
  intros Hserve Hbody.
  unfold present, try_except, bind, one_clicks_list, error_message.
  rewrite Hserve, Hbody. reflexivity.
Qed.

(** The run of [present] when the request returns [None]. *)
Lemma present_returns_none self r r' :
  serve (client self) r = (ReturnsNone, r') →
  present serve self r =
    (inr (AttributeError "get"), r', [ListRequest (client self)]).
Proof.
  intros Hserve.
  unfold present, try_except, bind, one_clicks_list. rewrite Hserve.
  reflexivity.
Qed.

(** The run of [present] when the request raises an exception of a class
    the handler does not name: the exception leaves [present]. *)
Lemma present_raises_other self r cls r' :
  serve (client self) r = (RaisesOther cls, r') →
  present serve self r =
    (inr (OtherError cls), r', [ListRequest (client self)]).
Proof.
  intros Hserve.
  unfold present, try_except, bind, one_clicks_list. rewrite Hserve.
  reflexivity.
Qed.

(** The valid filter values with their capitalised forms are the
    choices of the [type] option under [capitalize]. *)
Lemma type_choices_capitalize t T :
  (t, T) ∈ [("droplet", "Droplet"); ("kubernetes", "Kubernetes")]
  ↔ t ∈ type_choices ∧ T = capitalize t.
Proof.
  unfold type_choices. rewrite !elem_of_cons, !elem_of_nil. split.
  - intros [[= -> ->] | [[= -> ->] | []]]; auto.
  - intros [[-> | [-> | []]] ->]; auto.
Qed.

(** C1: for a non-empty catalogue and a valid filter, [present] exits
    successfully with exactly the entries whose [type] is the filter
    (in the catalogue's order, possibly none) and with the message
    "Current {Type} 1-Click applications", [Type] being the filter
    capitalised. *)
Theorem present_filtered self r info r' cat t T :
  serve (client self) r = (Returns info, r') →
  info !! "1_clicks" = Some cat →
  cat ≠ [] →
  (t, T) ∈ [("droplet", "Droplet"); ("kubernetes", "Kubernetes")] →
  params (module self) !! "type" = Some t →
  type self = Some t →
  present serve self r =
    (inr (SystemExit 0), r',
     [ListRequest (client self);
      ExitJson
        {| changed := Some false;
           msg := PStr ("Current " +:+ T +:+ " 1-Click applications");
           one_clicks :=
             Some (filter (λ val : entry, val !! "type" = Some (PStr t)) cat);
           error := None; exception := None |}]).
Proof.
  intros Hserve Hinfo Hcat [Ht ->]%type_choices_capitalize Hparams Hself.
  rewrite (present_returns _ _ _ _ Hserve), Hinfo, Hparams, Hself.
  destruct cat as [| e cat]; [done |].
  rewrite <- filtered_clicks_filter.
  destruct t as [| a s]; [| reflexivity].
  unfold type_choices in Ht.
  rewrite !elem_of_cons, elem_of_nil in Ht. by destruct Ht as [? | [? | []]].
Qed.

(** C2: for a non-empty catalogue and no filter, [present] exits
    successfully with the whole catalogue, unchanged, and the message
    "Current 1-Click applications". *)
Theorem present_unfiltered self r info r' cat :
  serve (client self) r = (Returns info, r') →
  info !! "1_clicks" = Some cat →
  cat ≠ [] →
  params (module self) !! "type" = None →
  present serve self r =
    (inr (SystemExit 0), r',
     [ListRequest (client self);
      ExitJson
        {| changed := Some false;
           msg := PStr "Current 1-Click applications";
           one_clicks := Some cat;
           error := None; exception := None |}]).
Proof.
  intros Hserve Hinfo Hcat Hparams.
  rewrite (present_returns _ _ _ _ Hserve), Hinfo, Hparams.
  destruct cat; [done | reflexivity].
Qed.

(** C3: for an empty catalogue, whatever the filter, [present] fails
    with the message "Current 1-Click applications not found", and the
    result has no [error]. *)
Theorem present_empty_catalog self r info r' :
  serve (client self) r = (Returns info, r') →
  info !! "1_clicks" = Some [] →
  present serve self r =
    (inr (SystemExit 1), r', [ListRequest (client self); FailJson not_found])
  ∧ msg not_found = PStr "Current 1-Click applications not found"
  ∧ error not_found = None.
Proof.
  intros Hserve Hinfo.
  by rewrite (present_returns _ _ _ _ Hserve), Hinfo.
Qed.

(** C4: for a non-empty catalogue and a filter that no entry matches,
    [present] exits successfully with an empty [one_clicks] and no
    [error]; an empty catalogue makes the same object fail instead. *)
Theorem present_filter_matches_nothing self r info r' cat t :
  serve (client self) r = (Returns info, r') →
  info !! "1_clicks" = Some cat →
  cat ≠ [] →
  t ≠ "" →
  params (module self) !! "type" = Some t →
  type self = Some t →
  Forall (λ val : entry, val !! "type" ≠ Some (PStr t)) cat →
  (∃ k : kwargs,
      present serve self r =
        (inr (SystemExit 0), r', [ListRequest (client self); ExitJson k])
      ∧ one_clicks k = Some []
      ∧ error k = None)
  ∧ (∀ r0 info0 r0',
        serve (client self) r0 = (Returns info0, r0') →
        info0 !! "1_clicks" = Some [] →
        present serve self r0 =
          (inr (SystemExit 1), r0',
           [ListRequest (client self); FailJson not_found])).
Proof.
  intros Hserve Hinfo Hcat Ht Hparams Hself Hnone. split.
  - rewrite (present_returns _ _ _ _ Hserve), Hinfo, Hparams, Hself.
    destruct cat as [| e cat]; [done |].
    destruct t as [| a s]; [done |].
    rewrite (filtered_clicks_none _ _ Hnone). by eexists.
  - intros r0 info0 r0' Hserve0 Hinfo0.
    by rewrite (present_returns _ _ _ _ Hserve0), Hinfo0.
Qed.

(** C5: when the request raises an [HttpResponseError] whose [err.error]
    is there, [present] fails (it leaves through [fail_json], no
    exception of its own) with an [error] record of the error's message,
    status code and reason, and with the error's message as [msg]. *)
Theorem present_remote_error self r err r' body :
  serve (client self) r = (Raises err, r') →
  err_error err = Some body →
  ∃ (k : kwargs) (e : gmap string pyval),
    present serve self r =
      (inr (SystemExit 1), r', [ListRequest (client self); FailJson k])
    ∧ msg k = message body
    ∧ error k = Some e
    ∧ e !! "Message" = Some (message body)
    ∧ e !! "Status Code" = Some (status_code err)
    ∧ e !! "Reason" = Some (reason err).
Proof.
  intros Hserve Hbody. eexists _, _.
  split; [exact (present_raises _ _ _ _ _ Hserve Hbody) |].
  cbn. repeat split; by simplify_map_eq.
Qed.

(** Every result [present] prints says [changed=False], whatever the
    object and whatever the request returns or raises. *)
Lemma present_changed self r :
  Forall (λ k : kwargs, changed k = Some false)
         (printed (present serve self r).2).
Proof.
  destruct (serve (client self) r) as [[info | | err | cls] r'] eqn:Hserve.
  - rewrite (present_returns _ _ _ _ Hserve).
    repeat case_match; cbn; repeat constructor.
  - rewrite (present_returns_none _ _ _ Hserve). constructor.
  - destruct (err_error err) as [body |] eqn:Hbody.
    + rewrite (present_raises _ _ _ _ _ Hserve Hbody). cbn.
      repeat constructor.
    + rewrite (present_raises_no_body _ _ _ _ Hserve Hbody). constructor.
  - rewrite (present_raises_other _ _ _ _ Hserve). constructor.
Qed.

(** C6: whatever the parameters and whatever the request returns or
    raises, every result [present] prints says [changed=False], on
    success and on failure alike; and for a response or an
    [HttpResponseError] whose [err.error] is there, [present] prints
    exactly one result. *)
Theorem present_never_changed self r :
  Forall (λ k : kwargs, changed k = Some false)
         (printed (present serve self r).2)
  ∧ (type self = params (module self) !! "type" →
     handled (serve (client self) r).1 = true →
     ∃ k : kwargs,
       printed (present serve self r).2 = [k] ∧ changed k = Some false).
Proof.
  split; [apply present_changed |].
  intros Hself Hhandled.
  destruct (serve (client self) r) as [[info | | err | cls] r'] eqn:Hserve;
    cbn in Hhandled; try discriminate.
  - rewrite (present_returns _ _ _ _ Hserve), Hself.
    destruct (info !! "1_clicks") as [[| e cat]|];
      [by eexists | | by eexists].
    destruct (params (module self) !! "type") as [[| a s]|]; by eexists.
  - apply bool_decide_eq_true in Hhandled as [body Hbody].
    rewrite (present_raises _ _ _ _ _ Hserve Hbody). by eexists.
Qed.

(** What [present] raises and prints is a function of the reply alone. *)
Lemma present_reply self r ra :
  (serve (client self) r).1 = (serve (client self) ra).1 →
  (present serve self r).1.1 = (present serve self ra).1.1
  ∧ (present serve self r).2 = (present serve self ra).2.
Proof.
  destruct (serve (client self) r) as [rep r'] eqn:Hr.
  destruct (serve (client self) ra) as [rep' ra'] eqn:Hra.
  cbn. intros <-. destruct rep as [info | | err | cls].
  - rewrite (present_returns _ _ _ _ Hr), (present_returns _ _ _ _ Hra).
    by repeat case_match.
  - by rewrite (present_returns_none _ _ _ Hr),
      (present_returns_none _ _ _ Hra).
  - destruct (err_error err) as [body |] eqn:Hbody.
    + by rewrite (present_raises _ _ _ _ _ Hr Hbody),
        (present_raises _ _ _ _ _ Hra Hbody).
    + by rewrite (present_raises_no_body _ _ _ _ Hr Hbody),
        (present_raises_no_body _ _ _ _ Hra Hbody).
  - by rewrite (present_raises_other _ _ _ _ Hr),
      (present_raises_other _ _ _ _ Hra).
Qed.

(** C7: two invocations with the same parameters, the second against
    the service as the first left it, end the same way and print the
    same result when the request returns the same both times. *)
Theorem present_idempotent self r x1 r1 ev1 x2 r2 ev2 :
  present serve self r = (x1, r1, ev1) →
  present serve self r1 = (x2, r2, ev2) →
  (serve (client self) r).1 = (serve (client self) r1).1 →
  x1 = x2 ∧ ev1 = ev2.
Proof.
  intros H1 H2 Hsame.
  destruct (present_reply self r r1 Hsame) as [Hx Hev].
  rewrite H1, H2 in Hx, Hev. done.
Qed.

(** C9: a response without the ["1_clicks"] key is treated as an empty
    catalogue: [present] fails with the "not found" message and no
    [error], as it does when the key holds the empty list. *)
Theorem present_missing_key self r info r' :
  serve (client self) r = (Returns info, r') →
  info !! "1_clicks" = None →
  present serve self r =
    (inr (SystemExit 1), r', [ListRequest (client self); FailJson not_found])
  ∧ msg not_found = PStr "Current 1-Click applications not found"
  ∧ error not_found = None
  ∧ (∀ r0, serve (client self) r0 = (Returns (<["1_clicks" := []]> info), r') →
           present serve self r0 = present serve self r).
Proof.
  intros Hserve Hinfo.
  rewrite (present_returns _ _ _ _ Hserve), Hinfo.
  repeat split. intros r0 Hserve0.
  by rewrite (present_returns _ _ _ _ Hserve0), lookup_insert_eq.
Qed.
End Present.

(** ** Properties of [main] *)

Section Main.
Context {remote : Type}.
Variable serve : Client → remote → list_reply * remote.
Variable missing_required_lib : string → string.
Variable azure_import pydo_import : import_result.

(** The object the constructor builds has the module's [type]. *)
Lemma self_of_type (m : AnsibleModule) :
  type (self_of m) = params (module (self_of m)) !! "type".
Proof. reflexivity. Qed.

(** With both libraries imported and [state] being ["present"], [main]
    creates the client and runs [present] on the constructed object. *)
Lemma main_present (m : AnsibleModule) (r r' : remote) e ev :
  azure_import = Imported →
  pydo_import = Imported →
  params m !! "state" = Some "present" →
  present serve (self_of m) r = (inr e, r', ev) →
  main serve missing_required_lib azure_import pydo_import m r =
    (inr e, r', ClientCreated (client (self_of m)) :: ev).
Proof.
  intros -> -> Hstate Hrun.
  cbv beta iota zeta delta
    [main HAS_AZURE_LIBRARY HAS_PYDO_LIBRARY __init__ new_Client
     bind emit ret negb state].
  rewrite Hstate, bool_decide_eq_true_2 by reflexivity.
  change (present serve _ r) with (present serve (self_of m) r).
  by rewrite Hrun.
Qed.

(** C8: when the import of [azure.core.exceptions] or of [pydo] failed,
    [main] fails at once: it prints one failure and exits with status 1,
    having neither created a client nor sent a request; the message is
    the missing-library message for a library whose import failed, and
    it names that library. *)
Theorem main_missing_library (m : AnsibleModule) (r : remote) :
  (∀ lib, mentions lib (missing_required_lib lib)) →
  azure_import ≠ Imported ∨ pydo_import ≠ Imported →
  ∃ (lib : string) (k : kwargs) (s : string),
    (lib = "azure.core.exceptions" ∧ azure_import ≠ Imported
     ∨ lib = "pydo" ∧ pydo_import ≠ Imported)
    ∧ main serve missing_required_lib azure_import pydo_import m r =
        (inr (SystemExit 1), r, [FailJson k])
    ∧ msg k = PStr s
    ∧ s = missing_required_lib lib
    ∧ mentions lib s.
Proof.
  intros Hname Hmissing.
  destruct azure_import as [| tba] eqn:Ha.
  - destruct Hmissing as [[] | Hp]; [reflexivity |].
    destruct pydo_import as [| tbp]; [done |].
    exists "pydo". eexists _, _. split; [by right |].
    split; [reflexivity |]. repeat split. apply Hname.
  - exists "azure.core.exceptions". eexists _, _. split; [by left |].
    split; [reflexivity |]. repeat split. apply Hname.
Qed.
End Main.

(** ** Further properties of the filter *)

(** X1: filtering what was filtered: by the same value nothing changes, by
    another value nothing is left. *)
Theorem filtered_clicks_again (t t' : string) (one_clicks : list entry) :
  filtered_clicks (Some t') (filtered_clicks (Some t) one_clicks)
  = if decide (t = t') then filtered_clicks (Some t) one_clicks else [].
Proof.
  induction one_clicks as [| val l IH].
  - by case_decide.
  - unfold filtered_clicks in *. cbn [List.filter].
    destruct (py_eq (dict_get val "type") (Some t)) eqn:E; [| exact IH].
    cbn [List.filter]. rewrite IH. case_decide as Ht.
    + subst t'. by rewrite E.
    + apply py_eq_type in E.
      assert (py_eq (dict_get val "type") (Some t') = false) as ->; [| done].
      apply py_eq_type_false. congruence.
Qed.

(** X2: when every entry has one of the choices of the [type] option as its
    type, the filtered lists over the choices hold, together, the entries
    of the catalogue, each as often as the catalogue does. *)
Theorem filtered_clicks_partition (one_clicks : list entry) :
  Forall (λ val : entry,
            ∃ t, t ∈ type_choices ∧ val !! "type" = Some (PStr t)) one_clicks →
  concat ((λ t, filtered_clicks (Some t) one_clicks) <$> type_choices)
  ≡ₚ one_clicks.
Proof.
  unfold type_choices. cbn [fmap list_fmap concat]. rewrite app_nil_r.
  induction 1 as [| val l (t & Ht & Hval) _ IH]; [done |].
  unfold filtered_clicks in *. cbn [List.filter].
  rewrite !elem_of_cons, elem_of_nil in Ht.
  destruct Ht as [-> | [-> | []]].
  - assert (py_eq (dict_get val "type") (Some "droplet") = true) as ->
      by by apply py_eq_type.
    assert (py_eq (dict_get val "type") (Some "kubernetes") = false) as ->
      by (apply py_eq_type_false; congruence).
    cbn. by f_equiv.
  - assert (py_eq (dict_get val "type") (Some "droplet") = false) as ->
      by (apply py_eq_type_false; congruence).
    assert (py_eq (dict_get val "type") (Some "kubernetes") = true) as ->
      by by apply py_eq_type.
    rewrite <- Permutation_middle. by f_equiv.
Qed.

(** ** Further properties of [present] *)

Section PresentRuns.
Context {remote : Type}.
Variable serve : Client → remote → list_reply * remote.
Implicit Types (self : OneClickApplicationsInformation) (r : remote)
  (info : gmap string (list entry)) (cat : list entry) (t : string).

(** The run of [present] for an object whose [type] is the module's, on
    a reply it has a result for: a request, then one result and
    [SystemExit], with status 0 exactly for a response that holds
    entries. *)
Lemma present_run self r :
  type self = params (module self) !! "type" →
  handled (serve (client self) r).1 = true →
  ∃ (code : Z) (k : kwargs),
    present serve self r =
      (inr (SystemExit code), (serve (client self) r).2,
       [ListRequest (client self);
        if decide (code = 0%Z) then ExitJson k else FailJson k])
    ∧ (code = 0 ∨ code = 1)%Z
    ∧ (code = 0%Z ↔
       ∃ info val cat,
         (serve (client self) r).1 = Returns info
         ∧ info !! "1_clicks" = Some (val :: cat)).
Proof.
  intros Hself Hhandled.
  destruct (serve (client self) r) as [[info | | err | cls] r'] eqn:Hserve;
    cbn [fst snd] in *; cbn in Hhandled; try discriminate.
  - rewrite (present_returns serve _ _ _ _ Hserve), Hself.
    destruct (info !! "1_clicks") as [[| val cat]|] eqn:Hinfo.
    + exists 1%Z. eexists. split; [reflexivity |]. split; [by right |].
      split; [done |]. intros (? & ? & ? & [= <-] & ?). congruence.
    + assert (∃ info0 val0 cat0,
                 Returns info = Returns info0
                 ∧ info0 !! "1_clicks" = Some (val0 :: cat0)) by eauto.
      destruct (params (module self) !! "type") as [[| a s]|];
        exists 0%Z; eexists; (split; [reflexivity |]);
        (split; [by left |]); by split.
    + exists 1%Z. eexists. split; [reflexivity |]. split; [by right |].
      split; [done |]. intros (? & ? & ? & [= <-] & ?). congruence.
  - apply bool_decide_eq_true in Hhandled as [body Hbody].
    rewrite (present_raises serve _ _ _ _ _ Hserve Hbody).
    exists 1%Z. eexists. split; [reflexivity |]. split; [by right |].
    split; [done |]. by intros (? & ? & ? & [=] & ?).
Qed.

(** [present] does not return: it leaves through an exception. *)
Lemma present_leaves self r :
  ∃ (e : exn) (r' : remote) (ev : list event),
    present serve self r = (inr e, r', ev).
Proof.
  destruct (serve (client self) r) as [[info | | err | cls] r'] eqn:Hserve.
  - rewrite (present_returns serve _ _ _ _ Hserve).
    repeat case_match; by eexists _, _, _.
  - rewrite (present_returns_none serve _ _ _ Hserve). by eexists _, _, _.
  - destruct (err_error err) as [body |] eqn:Hbody.
    + rewrite (present_raises serve _ _ _ _ _ Hserve Hbody).
      by eexists _, _, _.
    + rewrite (present_raises_no_body serve _ _ _ _ Hserve Hbody).
      by eexists _, _, _.
  - rewrite (present_raises_other serve _ _ _ _ Hserve). by eexists _, _, _.
Qed.

(** The run of [present] on a reply it has no result for: the request,
    then an exception that is not [SystemExit], and nothing printed. *)
Lemma present_unhandled self r :
  handled (serve (client self) r).1 = false →
  ∃ e : exn,
    present serve self r =
      (inr e, (serve (client self) r).2, [ListRequest (client self)])
    ∧ (∀ code, e ≠ SystemExit code).
Proof.
  intros Hhandled.
  destruct (serve (client self) r) as [[info | | err | cls] r'] eqn:Hserve;
    cbn [fst snd] in *; cbn in Hhandled; try discriminate.
  - rewrite (present_returns_none serve _ _ _ Hserve). by eexists.
  - apply bool_decide_eq_false in Hhandled.
    destruct (err_error err) as [body |] eqn:Hbody;
      [by destruct Hhandled; eexists |].
    rewrite (present_raises_no_body serve _ _ _ _ Hserve Hbody). by eexists.
  - rewrite (present_raises_other serve _ _ _ _ Hserve). by eexists.
Qed.

(** X3: for an object whose [type] is the module's, [present] never
    returns; it leaves through an exception, which is fixed by the reply.
    It is [SystemExit] with status 0 exactly when the request returned a
    response whose ["1_clicks"] holds at least one entry, and with status
    1 exactly when that key is missing or empty or the request raised an
    [HttpResponseError] whose [err.error] is there; one result is printed
    in both cases.  An [HttpResponseError] whose [err.error] is [None]
    and a response that is [None] end in [AttributeError], an exception
    of another class leaves [present] as it is; nothing is printed in
    these cases. *)
Theorem present_exit_status self r :
  type self = params (module self) !! "type" →
  ∃ e : exn,
    (present serve self r).1.1 = inr e
    ∧ (e = SystemExit 0 ↔
       ∃ info val cat,
         (serve (client self) r).1 = Returns info
         ∧ info !! "1_clicks" = Some (val :: cat))
    ∧ (e = SystemExit 1 ↔
       (∃ info,
           (serve (client self) r).1 = Returns info
           ∧ (info !! "1_clicks" = None ∨ info !! "1_clicks" = Some []))
       ∨ (∃ err body,
             (serve (client self) r).1 = Raises err
             ∧ err_error err = Some body))
    ∧ (∀ err,
          (serve (client self) r).1 = Raises err → err_error err = None →
          e = AttributeError "message")
    ∧ ((serve (client self) r).1 = ReturnsNone → e = AttributeError "get")
    ∧ (∀ cls, (serve (client self) r).1 = RaisesOther cls → e = OtherError cls)
    ∧ ((∃ code, e = SystemExit code) →
       ∃ k, printed (present serve self r).2 = [k])
    ∧ ((∀ code, e ≠ SystemExit code) →
       printed (present serve self r).2 = []).
Proof.
  intros Hself.
  destruct (serve (client self) r) as [[info | | err | cls] r'] eqn:Hserve;
    cbn [fst snd].
  - rewrite (present_returns serve _ _ _ _ Hserve), Hself.
    destruct (info !! "1_clicks") as [[| val cat]|] eqn:Hinfo.
    + exists (SystemExit 1). cbn. repeat split; settle.
    + destruct (params (module self) !! "type") as [[| a s]|];
        exists (SystemExit 0); cbn; repeat split; settle.
    + exists (SystemExit 1). cbn. repeat split; settle.
  - rewrite (present_returns_none serve _ _ _ Hserve).
    exists (AttributeError "get"). cbn. repeat split; settle.
  - destruct (err_error err) as [body |] eqn:Hbody.
    + rewrite (present_raises serve _ _ _ _ _ Hserve Hbody).
      exists (SystemExit 1). cbn. repeat split; settle.
    + rewrite (present_raises_no_body serve _ _ _ _ Hserve Hbody).
      exists (AttributeError "message"). cbn. repeat split; settle.
  - rewrite (present_raises_other serve _ _ _ _ Hserve).
    exists (OtherError cls). cbn. repeat split; settle.
Qed.

(** X4: whatever the object, [present] sends exactly one list request, from
    the object's client, constructs no client, and leaves the service in
    the state that request left. *)
Theorem present_one_request self r :
  requested (present serve self r).2 = [client self]
  ∧ created (present serve self r).2 = []
  ∧ (present serve self r).1.2 = (serve (client self) r).2.
Proof.
  destruct (serve (client self) r) as [[info | | err | cls] r'] eqn:Hserve.
  - rewrite (present_returns serve _ _ _ _ Hserve). by repeat case_match.
  - by rewrite (present_returns_none serve _ _ _ Hserve).
  - destruct (err_error err) as [body |] eqn:Hbody.
    + by rewrite (present_raises serve _ _ _ _ _ Hserve Hbody).
    + by rewrite (present_raises_no_body serve _ _ _ _ Hserve Hbody).
  - by rewrite (present_raises_other serve _ _ _ _ Hserve).
Qed.

(** X5: a [type] parameter that is the empty string is no filter: the whole
    catalogue is returned under the unfiltered message. *)
Theorem present_empty_type self r info r' cat :
  serve (client self) r = (Returns info, r') →
  info !! "1_clicks" = Some cat →
  cat ≠ [] →
  params (module self) !! "type" = Some "" →
  present serve self r =
    (inr (SystemExit 0), r',
     [ListRequest (client self);
      ExitJson
        {| changed := Some false;
           msg := PStr "Current 1-Click applications";
           one_clicks := Some cat;
           error := None; exception := None |}]).
Proof.
  intros Hserve Hinfo Hcat Hparams.
  rewrite (present_returns serve _ _ _ _ Hserve), Hinfo, Hparams.
  destruct cat; [done | reflexivity].
Qed.

(** X6: whatever the object and the parameters: a result printed through
    [exit_json] has no [error], and its [one_clicks] is a subsequence of
    the catalogue the request returned; a result printed through
    [fail_json] has no [one_clicks], and it has an [error] exactly when
    the request raised. *)
Theorem present_result_shape self r :
  Forall (λ k : kwargs,
            error k = None
            ∧ ∃ info cat l,
                (serve (client self) r).1 = Returns info
                ∧ info !! "1_clicks" = Some cat
                ∧ one_clicks k = Some l
                ∧ l `sublist_of` cat)
         (exited (present serve self r).2)
  ∧ Forall (λ k : kwargs,
              one_clicks k = None
              ∧ (is_Some (error k)
                 ↔ ∃ err, (serve (client self) r).1 = Raises err))
           (failed (present serve self r).2).
Proof.
  destruct (serve (client self) r) as [[info | | err | cls] r'] eqn:Hserve;
    cbn [fst snd].
  - rewrite (present_returns serve _ _ _ _ Hserve).
    assert (∀ o : option (gmap string pyval),
               o = None → is_Some o ↔ ∃ err, Returns info = Raises err)
      as Hfail.
    { intros o ->. split; [by intros [? [=]] | by intros [? [=]]]. }
    destruct (info !! "1_clicks") as [[| val cat]|] eqn:Hinfo;
      [split; cbn; repeat (apply Forall_cons; split);
         try apply Forall_nil; cbn; auto | |
       split; cbn; repeat (apply Forall_cons; split);
         try apply Forall_nil; cbn; auto].
    assert (∀ l, l `sublist_of` val :: cat →
              ∃ info0 cat0 l0,
                Returns info = Returns info0
                ∧ info0 !! "1_clicks" = Some cat0
                ∧ Some l = Some l0
                ∧ l0 `sublist_of` cat0) as Hexit by eauto 8.
    destruct (params (module self) !! "type") as [[| a s]|];
      [| destruct (type self) |];
      try remember (filtered_clicks _ _) as fc eqn:Hfc;
      split; cbn;
      repeat (apply Forall_cons; split); try apply Forall_nil; cbn; auto;
      (split; [reflexivity |]); apply Hexit; try reflexivity.
    subst fc. rewrite filtered_clicks_filter. apply sublist_filter.
  - rewrite (present_returns_none serve _ _ _ Hserve).
    split; constructor.
  - destruct (err_error err) as [body |] eqn:Hbody.
    + rewrite (present_raises serve _ _ _ _ _ Hserve Hbody).
      split; cbn; repeat (apply Forall_cons; split); try apply Forall_nil;
        cbn; auto.
      split; [reflexivity |]. split; eauto.
    + rewrite (present_raises_no_body serve _ _ _ _ Hserve Hbody).
      split; constructor.
  - rewrite (present_raises_other serve _ _ _ _ Hserve).
    split; constructor.
Qed.

(** X7: for parameters that passed validation and a request that returned,
    the message of the result is one of the samples the module documents
    for [msg]. *)
Theorem present_msg_documented self r info r' :
  serve (client self) r = (Returns info, r') →
  type self = params (module self) !! "type" →
  valid_type (params (module self) !! "type") →
  ∃ (k : kwargs) (s : string),
    printed (present serve self r).2 = [k]
    ∧ msg k = PStr s
    ∧ s ∈ RETURN_msg_samples.
Proof.
  intros Hserve Hself Hvalid.
  rewrite (present_returns serve _ _ _ _ Hserve), Hself.
  unfold RETURN_msg_samples.
  destruct (info !! "1_clicks") as [[| val cat]|];
    [eexists _, _; cbn; repeat split; set_solver | |
     eexists _, _; cbn; repeat split; set_solver].
  destruct (params (module self) !! "type") as [t |];
    [| eexists _, _; cbn; repeat split; set_solver].
  unfold valid_type, type_choices in Hvalid.
  rewrite !elem_of_cons, elem_of_nil in Hvalid.
  destruct Hvalid as [-> | [-> | []]];
    eexists _, _; cbn; repeat split; set_solver.
Qed.
End PresentRuns.

(** ** Further properties of the constructor and of [main] *)

Section MainRuns.
Context {remote : Type}.
Variable serve : Client → remote → list_reply * remote.
Variable missing_required_lib : string → string.
Variable azure_import pydo_import : import_result.
Implicit Types (m : AnsibleModule) (r : remote).

(** The constructor on a module whose [state] is ["present"]: the client,
    then the run of [present] on the object. *)
Lemma init_present m r r' e ev :
  params m !! "state" = Some "present" →
  present serve (self_of m) r = (inr e, r', ev) →
  __init__ serve m r = (inr e, r', ClientCreated (client (self_of m)) :: ev).
Proof.
  intros Hstate Hrun.
  cbv beta iota zeta delta [__init__ new_Client bind emit ret state].
  rewrite Hstate, bool_decide_eq_true_2 by reflexivity.
  change (present serve _ r) with (present serve (self_of m) r).
  by rewrite Hrun.
Qed.

(** The constructor on a module with another [state]. *)
Lemma init_not_present m r :
  params m !! "state" ≠ Some "present" →
  __init__ serve m r =
    (inl (self_of m), r, [ClientCreated (client (self_of m))]).
Proof.
  intros Hstate.
  cbv beta iota zeta delta [__init__ new_Client bind emit ret state].
  by rewrite bool_decide_eq_false_2.
Qed.

(** [main] with both libraries imported and a [state] other than
    ["present"]. *)
Lemma main_not_present m r :
  azure_import = Imported →
  pydo_import = Imported →
  params m !! "state" ≠ Some "present" →
  main serve missing_required_lib azure_import pydo_import m r =
    (inl tt, r, [ClientCreated (client (self_of m))]).
Proof.
  intros -> -> Hstate.
  cbv beta iota zeta delta
    [main HAS_AZURE_LIBRARY HAS_PYDO_LIBRARY bind ret negb].
  by rewrite (init_not_present _ _ Hstate).
Qed.

(** [main] with both libraries imported and [state] being ["present"],
    on a reply [present] has a result for: the client, the request, one
    result and [SystemExit]. *)
Lemma main_present_run m r :
  azure_import = Imported →
  pydo_import = Imported →
  params m !! "state" = Some "present" →
  handled (serve (client (self_of m)) r).1 = true →
  ∃ (code : Z) (k : kwargs),
    main serve missing_required_lib azure_import pydo_import m r =
      (inr (SystemExit code), (serve (client (self_of m)) r).2,
       [ClientCreated (client (self_of m)); ListRequest (client (self_of m));
        if decide (code = 0%Z) then ExitJson k else FailJson k])
    ∧ (code = 0 ∨ code = 1)%Z
    ∧ (code = 0%Z ↔
       ∃ info val cat,
         (serve (client (self_of m)) r).1 = Returns info
         ∧ info !! "1_clicks" = Some (val :: cat)).
Proof.
  intros Ha Hp Hstate Hhandled.
  destruct (present_run serve (self_of m) r eq_refl Hhandled)
    as (code & k & Hrun & Hcode & Hiff).
  exists code, k. split; [| done].
  by apply main_present.
Qed.

(** The same on a reply [present] has no result for: the client, the
    request, and an exception that is not [SystemExit]. *)
Lemma main_present_unhandled m r :
  azure_import = Imported →
  pydo_import = Imported →
  params m !! "state" = Some "present" →
  handled (serve (client (self_of m)) r).1 = false →
  ∃ e : exn,
    main serve missing_required_lib azure_import pydo_import m r =
      (inr e, (serve (client (self_of m)) r).2,
       [ClientCreated (client (self_of m)); ListRequest (client (self_of m))])
    ∧ (∀ code, e ≠ SystemExit code).
Proof.
  intros Ha Hp Hstate Hhandled.
  destruct (present_unhandled serve (self_of m) r Hhandled)
    as (e & Hrun & He).
  exists e. split; [| done].
  by apply main_present.
Qed.

(** X8: when [state] is ["present"], the constructor does not return the
    object: it creates the client from the module's token, sends one
    request with it, and leaves through the exception [present] leaves
    through.  For a response, and for an [HttpResponseError] whose
    [err.error] is there, that is [SystemExit] after one result, with
    status 0 through [exit_json] or status 1 through [fail_json]; for
    any other reply it is another exception and nothing is printed. *)
Theorem init_state_present m r :
  params m !! "state" = Some "present" →
  ∃ (e : exn) (ev : list event),
    __init__ serve m r =
      (inr e, (serve {| token := params m !! "token" |} r).2,
       ClientCreated {| token := params m !! "token" |}
       :: ListRequest {| token := params m !! "token" |} :: ev)
    ∧ (handled (serve {| token := params m !! "token" |} r).1 = true →
       ∃ (code : Z) (k : kwargs),
         e = SystemExit code
         ∧ (code = 0 ∨ code = 1)%Z
         ∧ ev = [if decide (code = 0%Z) then ExitJson k else FailJson k])
    ∧ (handled (serve {| token := params m !! "token" |} r).1 = false →
       ev = [] ∧ ∀ code, e ≠ SystemExit code).
Proof.
  intros Hstate.
  destruct (handled (serve {| token := params m !! "token" |} r).1)
    eqn:Hhandled.
  - destruct (present_run serve (self_of m) r eq_refl Hhandled)
      as (code & k & Hrun & Hcode & _).
    eexists _, _. split; [by apply init_present |].
    split; [| done]. intros _. by exists code, k.
  - destruct (present_unhandled serve (self_of m) r Hhandled)
      as (e & Hrun & He).
    eexists _, _. split; [by apply init_present |].
    split; [done |]. by intros _.
Qed.

(** X9: when [state] is anything but ["present"], the constructor only
    builds the object: the client is created, no request is sent, nothing
    is printed, and the object holds the module and its [token], [state]
    and [type]. *)
Theorem init_state_not_present m r :
  params m !! "state" ≠ Some "present" →
  ∃ self,
    __init__ serve m r = (inl self, r, [ClientCreated (client self)])
    ∧ module self = m
    ∧ client self = {| token := params m !! "token" |}
    ∧ state self = params m !! "state"
    ∧ type self = params m !! "type".
Proof.
  intros Hstate. exists (self_of m).
  by rewrite (init_not_present _ _ Hstate).
Qed.

(** X10: a failed import is reported by [main] before anything else: the
    failure of [azure.core.exceptions] whether [pydo] was imported or
    not, the failure of [pydo] otherwise.  The one result printed has the
    missing-library message, the traceback of the import as [exception]
    and no [changed], [one_clicks] or [error]; the status is 1. *)
Theorem main_import_failure m r lib tb :
  azure_import = ImportFailed tb ∧ lib = "azure.core.exceptions"
  ∨ azure_import = Imported ∧ pydo_import = ImportFailed tb ∧ lib = "pydo" →
  main serve missing_required_lib azure_import pydo_import m r =
    (inr (SystemExit 1), r,
     [FailJson
        {| changed := None;
           msg := PStr (missing_required_lib lib);
           one_clicks := None; error := None;
           exception := Some (Some tb) |}]).
Proof.
  intros [[-> ->] | (-> & -> & ->)]; reflexivity.
Qed.

(** X11: how [main] ends agrees with what it printed.  If it returns, it
    printed nothing and sent no request (both libraries imported,
    [state] not ["present"]).  If it exits with status 0, it printed
    exactly one result, through [exit_json]; with status 1, exactly one,
    through [fail_json]; it exits with no other status.  If it ends in
    another exception, it printed nothing: the request was sent and
    [present] had no result for its reply. *)
Theorem main_outcome m r :
  let run := main serve missing_required_lib azure_import pydo_import m r in
  let c := {| token := params m !! "token" |} in
  (run.1.1 = inl tt →
   printed run.2 = [] ∧ requested run.2 = []
   ∧ azure_import = Imported ∧ pydo_import = Imported
   ∧ params m !! "state" ≠ Some "present")
  ∧ (run.1.1 = inr (SystemExit 0) →
     ∃ k, exited run.2 = [k] ∧ failed run.2 = [])
  ∧ (run.1.1 = inr (SystemExit 1) →
     ∃ k, failed run.2 = [k] ∧ exited run.2 = [])
  ∧ (∀ code, run.1.1 = inr (SystemExit code) → (code = 0 ∨ code = 1)%Z)
  ∧ (∀ e, run.1.1 = inr e → (∀ code, e ≠ SystemExit code) →
     printed run.2 = [] ∧ requested run.2 = [c]
     ∧ handled (serve c r).1 = false).
Proof.
  cbv zeta.
  assert (∀ (k : kwargs) (x : unit + exn) (ev : list event),
            x = inr (SystemExit 1) → ev = [FailJson k] →
            (x = inl tt →
             printed ev = [] ∧ requested ev = []
             ∧ azure_import = Imported ∧ pydo_import = Imported
             ∧ params m !! "state" ≠ Some "present")
            ∧ (x = inr (SystemExit 0) →
               ∃ k, exited ev = [k] ∧ failed ev = [])
            ∧ (x = inr (SystemExit 1) →
               ∃ k, failed ev = [k] ∧ exited ev = [])
            ∧ (∀ code, x = inr (SystemExit code) → (code = 0 ∨ code = 1)%Z)
            ∧ (∀ e, x = inr e → (∀ code, e ≠ SystemExit code) →
               printed ev = []
               ∧ requested ev = [{| token := params m !! "token" |}]
               ∧ handled (serve {| token := params m !! "token" |} r).1
                 = false)) as Hfailed.
  { intros k x ev -> ->.
    split; [intros [=] |]. split; [intros [=] |].
    split; [intros _; by exists k |].
    split; [intros ? [= <-]; by right |].
    intros ? [= <-] He. by destruct (He 1%Z). }
  destruct azure_import as [| tba] eqn:Ha;
    [| by eapply Hfailed].
  destruct pydo_import as [| tbp] eqn:Hp;
    [| by eapply Hfailed].
  clear Hfailed.
  destruct (decide (params m !! "state" = Some "present")) as [Hstate | Hstate].
  - destruct (handled (serve (client (self_of m)) r).1) eqn:Hhandled.
    + destruct (main_present_run m r Ha Hp Hstate Hhandled)
        as (code & k & Hrun & Hcode & _).
      rewrite Ha, Hp in Hrun. rewrite Hrun. cbn [fst snd].
      split; [intros [=] |].
      split; [intros [= ->]; by exists k |].
      split; [intros [= ->]; by exists k |].
      split; [by intros ? [= <-] |].
      intros e [= <-] He. by destruct (He code).
    + destruct (main_present_unhandled m r Ha Hp Hstate Hhandled)
        as (e & Hrun & He).
      rewrite Ha, Hp in Hrun. rewrite Hrun. cbn [fst snd].
      split; [intros [=] |].
      split; [intros [= ->]; by destruct (He 0%Z) |].
      split; [intros [= ->]; by destruct (He 1%Z) |].
      split; [intros code [= ->]; by destruct (He code) |].
      intros e' [= <-] _. done.
  - pose proof (main_not_present m r Ha Hp Hstate) as Hrun.
    rewrite Ha, Hp in Hrun. rewrite Hrun. cbn [fst snd].
    split; [by intros _ |].
    split; [intros [=] |]. split; [intros [=] |].
    split; [intros ? [=] | intros ? [=]].
Qed.

(** X12: [main] exits with status 0 exactly when both libraries were
    imported, [state] is ["present"], and the request of the client with
    the module's token returned a response whose ["1_clicks"] holds at
    least one entry. *)
Theorem main_succeeds_iff m r :
  (main serve missing_required_lib azure_import pydo_import m r).1.1
  = inr (SystemExit 0)
  ↔ azure_import = Imported
    ∧ pydo_import = Imported
    ∧ params m !! "state" = Some "present"
    ∧ ∃ info val cat,
        (serve {| token := params m !! "token" |} r).1 = Returns info
        ∧ info !! "1_clicks" = Some (val :: cat).
Proof.
  destruct azure_import as [| tba] eqn:Ha;
    [| split; [intros [=] | intros ([=] & _)]].
  destruct pydo_import as [| tbp] eqn:Hp;
    [| split; [intros [=] | intros (_ & [=] & _)]].
  destruct (decide (params m !! "state" = Some "present")) as [Hstate | Hstate].
  - destruct (handled (serve (client (self_of m)) r).1) eqn:Hhandled.
    + destruct (main_present_run m r Ha Hp Hstate Hhandled)
        as (code & k & Hrun & _ & Hiff).
      rewrite Ha, Hp in Hrun. rewrite Hrun. cbn [fst]. split.
      * intros [= ->]. repeat (split; [done |]). by apply Hiff.
      * intros (_ & _ & _ & Hresp). apply Hiff in Hresp. by subst code.
    + destruct (main_present_unhandled m r Ha Hp Hstate Hhandled)
        as (e & Hrun & He).
      rewrite Ha, Hp in Hrun. rewrite Hrun. cbn [fst]. split.
      * intros [= ->]. by destruct (He 0%Z).
      * intros (_ & _ & _ & info & val & cat & Hresp & _).
        change {| token := params m !! "token" |}
          with (client (self_of m)) in Hresp.
        by rewrite Hresp in Hhandled.
  - pose proof (main_not_present m r Ha Hp Hstate) as Hrun.
    rewrite Ha, Hp in Hrun. rewrite Hrun. cbn [fst].
    split; [intros [=] | by intros (_ & _ & ? & _)].
Qed.

(** X13: what [main] does to the outside: with a library missing it creates
    no client and sends no request; with both imported it creates one
    client, from the module's token, and that client sends one request
    when [state] is ["present"] and none otherwise.  Without a request
    the service is left as it was. *)
Theorem main_requests m r :
  let run := main serve missing_required_lib azure_import pydo_import m r in
  let c := {| token := params m !! "token" |} in
  if decide (azure_import = Imported ∧ pydo_import = Imported) then
    created run.2 = [c]
    ∧ if decide (params m !! "state" = Some "present") then
        requested run.2 = [c] ∧ run.1.2 = (serve c r).2
      else
        requested run.2 = [] ∧ run.1.2 = r
  else
    created run.2 = [] ∧ requested run.2 = [] ∧ run.1.2 = r.
Proof.
  cbv zeta.
  destruct azure_import as [| tba] eqn:Ha;
    [| by rewrite decide_False by (by intros [[=] _])].
  destruct pydo_import as [| tbp] eqn:Hp;
    [| by rewrite decide_False by (by intros [_ [=]])].
  rewrite decide_True by done.
  destruct (decide (params m !! "state" = Some "present")) as [Hstate | Hstate].
  - destruct (handled (serve (client (self_of m)) r).1) eqn:Hhandled.
    + destruct (main_present_run m r Ha Hp Hstate Hhandled)
        as (code & k & Hrun & _ & _).
      rewrite Ha, Hp in Hrun. rewrite Hrun. by case_decide.
    + destruct (main_present_unhandled m r Ha Hp Hstate Hhandled)
        as (e & Hrun & _).
      rewrite Ha, Hp in Hrun. by rewrite Hrun.
  - pose proof (main_not_present m r Ha Hp Hstate) as Hrun.
    rewrite Ha, Hp in Hrun. by rewrite Hrun.
Qed.
End MainRuns.

(** ** What the result depends on, and what it never reports *)

(** X14: the filtered list is the whole catalogue exactly when every entry
    has the filter's type, and it is empty exactly when none has. *)
Theorem filtered_clicks_all_or_nothing (t : string) (one_clicks : list entry) :
  (filtered_clicks (Some t) one_clicks = one_clicks
   ↔ Forall (λ val : entry, val !! "type" = Some (PStr t)) one_clicks)
  ∧ (filtered_clicks (Some t) one_clicks = []
     ↔ Forall (λ val : entry, val !! "type" ≠ Some (PStr t)) one_clicks).
Proof.
  split; split.
  - rewrite filtered_clicks_filter. intros Heq.
    apply Forall_forall. intros val Hin.
    rewrite <- Heq in Hin. by apply list_elem_of_filter in Hin as [? _].
  - unfold filtered_clicks.
    induction 1 as [| val l Hval _ IH]; [reflexivity |].
    cbn [List.filter]. apply py_eq_type in Hval. by rewrite Hval, IH.
  - rewrite filtered_clicks_filter. intros Heq.
    apply Forall_forall. intros val Hin Hval.
    by apply (filter_nil_not_elem_of _ _ _ Heq Hval).
  - apply filtered_clicks_none.
Qed.

Section PresentDepends.
Context {remote : Type}.
Variable serve : Client → remote → list_reply * remote.
Implicit Types (self : OneClickApplicationsInformation) (r : remote).

(** X15: the exception and the result of [present] depend on the object only
    through the module's [type] parameter: two objects built for that
    same parameter, with whatever tokens, clients and states, end the
    same way and print the same result when their requests get the same
    reply. *)
Theorem present_depends_on_type self1 self2 r1 r2 :
  type self1 = params (module self1) !! "type" →
  type self2 = params (module self2) !! "type" →
  params (module self1) !! "type" = params (module self2) !! "type" →
  (serve (client self1) r1).1 = (serve (client self2) r2).1 →
  (present serve self1 r1).1.1 = (present serve self2 r2).1.1
  ∧ printed (present serve self1 r1).2 = printed (present serve self2 r2).2.
Proof.
  intros Hself1 Hself2 Htype Hreply.
  destruct (serve (client self1) r1) as [rep1 r1'] eqn:H1.
  destruct (serve (client self2) r2) as [rep2 r2'] eqn:H2.
  cbn in Hreply. subst rep2. destruct rep1 as [info | | err | cls].
  - rewrite (present_returns serve _ _ _ _ H1),
      (present_returns serve _ _ _ _ H2), Hself1, Hself2, Htype.
    by repeat case_match.
  - by rewrite (present_returns_none serve _ _ _ H1),
      (present_returns_none serve _ _ _ H2).
  - destruct (err_error err) as [body |] eqn:Hbody.
    + by rewrite (present_raises serve _ _ _ _ _ H1 Hbody),
        (present_raises serve _ _ _ _ _ H2 Hbody).
    + by rewrite (present_raises_no_body serve _ _ _ _ H1 Hbody),
        (present_raises_no_body serve _ _ _ _ H2 Hbody).
  - by rewrite (present_raises_other serve _ _ _ _ H1),
      (present_raises_other serve _ _ _ _ H2).
Qed.
End PresentDepends.

Section MainNeverChanged.
Context {remote : Type}.
Variable serve : Client → remote → list_reply * remote.
Variable missing_required_lib : string → string.
Variable azure_import pydo_import : import_result.

(** X16: no result [main] prints says [changed=True]: a result of [present]
    says [changed=False], the report of a failed import says nothing
    about [changed]. *)
Theorem main_never_reports_change (m : AnsibleModule) (r : remote) :
  Forall (λ k : kwargs, changed k ≠ Some true)
    (printed
       (main serve missing_required_lib azure_import pydo_import m r).2).
Proof.
  destruct azure_import as [| tba] eqn:Ha;
    [| by repeat constructor].
  destruct pydo_import as [| tbp] eqn:Hp;
    [| by repeat constructor].
  destruct (decide (params m !! "state" = Some "present")) as [Hstate | Hstate].
  - pose proof (present_changed serve (self_of m) r) as Hchanged.
    destruct (present_leaves serve (self_of m) r) as (e & r' & ev & Hrun).
    rewrite (main_present serve missing_required_lib Imported Imported
               m r _ _ _ eq_refl eq_refl Hstate Hrun).
    rewrite Hrun in Hchanged. cbn [snd] in *.
    change (printed (ClientCreated ?c :: ?ev)) with (printed ev).
    eapply Forall_impl; [exact Hchanged |].
    by intros k' ->.
  - by rewrite (main_not_present serve missing_required_lib Imported Imported
                  m r eq_refl eq_refl Hstate).
Qed.
End MainNeverChanged.

(** ** The theorems at concrete inputs *)

(** The example of the specification: the catalogue of [netdata] and
    [cpanel] filtered by [kubernetes]. *)
Lemma present_filtered_witness :
  present (always (Returns {[ "1_clicks" := [netdata; cpanel] ]}))
    (self_of {| params := {[ "type" := "kubernetes" ]} |}) tt
  = (inr (SystemExit 0), tt,
     [ListRequest {| token := None |};
      ExitJson
        {| changed := Some false;
           msg := PStr "Current Kubernetes 1-Click applications";
           one_clicks := Some [netdata];
           error := None; exception := None |}]).
Proof.
  instance_of
    (present_filtered
       (always (Returns {[ "1_clicks" := [netdata; cpanel] ]}))
       (self_of {| params := {[ "type" := "kubernetes" ]} |}) tt
       {[ "1_clicks" := [netdata; cpanel] ]} tt
       [netdata; cpanel] "kubernetes" "Kubernetes");
    [reflexivity | reflexivity | discriminate
    | apply list_elem_of_further, list_elem_of_here
    | reflexivity | reflexivity].
Defined.

(** The same catalogue without a filter. *)
Lemma present_unfiltered_witness :
  present (always (Returns {[ "1_clicks" := [netdata; cpanel] ]}))
    (self_of {| params := {[ "token" := "secret" ]} |}) tt
  = (inr (SystemExit 0), tt,
     [ListRequest {| token := Some "secret" |};
      ExitJson
        {| changed := Some false;
           msg := PStr "Current 1-Click applications";
           one_clicks := Some [netdata; cpanel];
           error := None; exception := None |}]).
Proof.
  instance_of
    (present_unfiltered
       (always (Returns {[ "1_clicks" := [netdata; cpanel] ]}))
       (self_of {| params := {[ "token" := "secret" ]} |}) tt
       {[ "1_clicks" := [netdata; cpanel] ]} tt [netdata; cpanel]);
    [reflexivity | reflexivity | discriminate | reflexivity].
Defined.

(** An empty catalogue, with a filter given. *)
Lemma present_empty_catalog_witness :
  present (always (Returns {[ "1_clicks" := [] ]}))
    (self_of {| params := {[ "type" := "droplet" ]} |}) tt
  = (inr (SystemExit 1), tt,
     [ListRequest {| token := None |}; FailJson not_found])
  ∧ msg not_found = PStr "Current 1-Click applications not found"
  ∧ error not_found = None.
Proof.
  instance_of
    (present_empty_catalog
       (always (Returns {[ "1_clicks" := [] ]}))
       (self_of {| params := {[ "type" := "droplet" ]} |}) tt
       {[ "1_clicks" := [] ]} tt);
    reflexivity.
Defined.

(** A catalogue of one Kubernetes application filtered by [droplet]. *)
Lemma present_filter_matches_nothing_witness :
  ∃ k : kwargs,
    present (always (Returns {[ "1_clicks" := [netdata] ]}))
      (self_of {| params := {[ "type" := "droplet" ]} |}) tt
    = (inr (SystemExit 0), tt, [ListRequest {| token := None |}; ExitJson k])
    ∧ one_clicks k = Some []
    ∧ error k = None.
Proof.
  refine (proj1 (present_filter_matches_nothing
                   (always (Returns {[ "1_clicks" := [netdata] ]}))
                   (self_of {| params := {[ "type" := "droplet" ]} |}) tt
                   {[ "1_clicks" := [netdata] ]} tt [netdata] "droplet"
                   _ _ _ _ _ _ _));
    [reflexivity | reflexivity | discriminate | discriminate
    | reflexivity | reflexivity |].
  apply Forall_cons. split; [vm_compute; discriminate | constructor].
Defined.

(** The request refused with status 401, reason "Unauthorized". *)
Lemma present_remote_error_witness :
  ∃ (k : kwargs) (e : gmap string pyval),
    present (always (Raises unauthorized))
      (self_of {| params := {[ "token" := "wrong" ]} |}) tt
    = (inr (SystemExit 1), tt,
       [ListRequest {| token := Some "wrong" |}; FailJson k])
    ∧ msg k = PStr "Unable to authenticate you"
    ∧ error k = Some e
    ∧ e !! "Message" = Some (PStr "Unable to authenticate you")
    ∧ e !! "Status Code" = Some (PInt 401)
    ∧ e !! "Reason" = Some (PStr "Unauthorized").
Proof.
  destruct (present_remote_error (always (Raises unauthorized))
              (self_of {| params := {[ "token" := "wrong" ]} |}) tt
              unauthorized tt
              {| message := PStr "Unable to authenticate you" |}
              eq_refl eq_refl) as (k & e & H).
  exists k, e. exact H.
Defined.

(** Two errors of the request that [present] does not report.  A
    transport error: the connection to the service fails, and the
    request raises an exception that is not an [HttpResponseError]; the
    exception leaves [present].  An error response whose body is not
    JSON: the [HttpResponseError] has no [err.error], and the handler
    raises [AttributeError].  In both runs no failure is printed, and so
    no [error] record either. *)
Lemma present_remote_error_counterexample :
  let self := self_of {| params := {[ "token" := "secret" ]} |} in
  let run1 := present (always (RaisesOther "ServiceRequestError")) self tt in
  let run2 := present (always (Raises bad_gateway)) self tt in
  (run1 = (inr (OtherError "ServiceRequestError"), tt,
           [ListRequest {| token := Some "secret" |}])
   ∧ printed run1.2 = []
   ∧ ¬ ∃ k : kwargs,
         run1 = (inr (SystemExit 1), tt,
                 [ListRequest {| token := Some "secret" |}; FailJson k]))
  ∧ (run2 = (inr (AttributeError "message"), tt,
             [ListRequest {| token := Some "secret" |}])
     ∧ printed run2.2 = []
     ∧ ¬ ∃ k : kwargs,
           run2 = (inr (SystemExit 1), tt,
                   [ListRequest {| token := Some "secret" |}; FailJson k])).
Proof.
  cbv zeta.
  assert (present (always (RaisesOther "ServiceRequestError"))
            (self_of {| params := {[ "token" := "secret" ]} |}) tt
          = (inr (OtherError "ServiceRequestError"), tt,
             [ListRequest {| token := Some "secret" |}])) as ->
    by (vm_compute; reflexivity).
  assert (present (always (Raises bad_gateway))
            (self_of {| params := {[ "token" := "secret" ]} |}) tt
          = (inr (AttributeError "message"), tt,
             [ListRequest {| token := Some "secret" |}])) as ->
    by (vm_compute; reflexivity).
  split; (split; [reflexivity |]); (split; [reflexivity |]);
    intros [k [=]].
Qed.

(** The filtered run prints one result, with [changed=False]. *)
Lemma present_never_changed_witness :
  ∃ k : kwargs,
    printed
      (present (always (Returns {[ "1_clicks" := [netdata; cpanel] ]}))
         (self_of {| params := {[ "type" := "kubernetes" ]} |}) tt).2 = [k]
    ∧ changed k = Some false.
Proof.
  apply (proj2 (present_never_changed
                  (always (Returns {[ "1_clicks" := [netdata; cpanel] ]}))
                  (self_of {| params := {[ "type" := "kubernetes" ]} |}) tt));
    reflexivity.
Defined.

(** Two invocations against a service that counts its requests. *)
Lemma present_idempotent_witness :
  let serve := counting (Returns {[ "1_clicks" := [netdata; cpanel] ]}) in
  let self := self_of {| params := {[ "type" := "droplet" ]} |} in
  (present serve self 0).1.2 = 1
  ∧ (present serve self 0).1.1 = (present serve self 1).1.1
  ∧ (present serve self 0).2 = (present serve self 1).2.
Proof.
  intros serve self. split; [vm_compute; reflexivity |].
  apply (present_idempotent serve self 0
           (present serve self 0).1.1 1 (present serve self 0).2
           (present serve self 1).1.1 (present serve self 1).1.2
           (present serve self 1).2);
    vm_compute; reflexivity.
Defined.

(** A response that holds no ["1_clicks"] at all. *)
Lemma present_missing_key_witness :
  present (always (Returns ∅)) (self_of {| params := ∅ |}) tt
  = (inr (SystemExit 1), tt,
     [ListRequest {| token := None |}; FailJson not_found]).
Proof.
  instance_of
    (λ H1 H2,
       proj1 (present_missing_key (always (Returns ∅))
                (self_of {| params := ∅ |}) tt ∅ tt H1 H2));
    reflexivity.
Defined.

(** [pydo] is missing, [azure.core.exceptions] is not. *)
Lemma main_missing_library_witness :
  ∃ (lib : string) (k : kwargs) (s : string),
    (lib = "azure.core.exceptions" ∧ Imported ≠ Imported
     ∨ lib = "pydo" ∧ ImportFailed "No module named 'pydo'" ≠ Imported)
    ∧ main (always (Returns {[ "1_clicks" := [netdata] ]}))
        import_failure_message Imported
        (ImportFailed "No module named 'pydo'")
        {| params := {[ "state" := "present" ]} |} tt
      = (inr (SystemExit 1), tt, [FailJson k])
    ∧ msg k = PStr s
    ∧ s = import_failure_message lib
    ∧ mentions lib s.
Proof.
  apply main_missing_library.
  - intros lib. eexists _, _. reflexivity.
  - right. discriminate.
Defined.

(** A catalogue of three applications, of both types. *)
Lemma filtered_clicks_partition_witness :
  concat ((λ t, filtered_clicks (Some t) [netdata; cpanel; netdata])
            <$> type_choices)
  ≡ₚ [netdata; cpanel; netdata].
Proof.
  apply (filtered_clicks_partition [netdata; cpanel; netdata]).
  apply Forall_cons. split.
  { exists "kubernetes". split; [| reflexivity].
    apply list_elem_of_further, list_elem_of_here. }
  apply Forall_cons. split.
  { exists "droplet". split; [| reflexivity]. apply list_elem_of_here. }
  apply Forall_cons. split; [| constructor].
  exists "kubernetes". split; [| reflexivity].
  apply list_elem_of_further, list_elem_of_here.
Defined.

(** A run whose request is answered by a gateway with a body that is
    not JSON: the handler raises, and nothing is printed. *)
Lemma present_exit_status_witness :
  let serve := always (Raises bad_gateway) in
  let self := self_of {| params := {[ "type" := "droplet" ]} |} in
  (present serve self tt).1.1 = inr (AttributeError "message")
  ∧ printed (present serve self tt).2 = [].
Proof.
  intros serve self.
  destruct (present_exit_status serve self tt eq_refl)
    as (e & He & _ & _ & Hbody & _ & _ & _ & Hnone).
  assert (e = AttributeError "message") as -> by (by apply (Hbody bad_gateway)).
  split; [exact He |]. apply Hnone. discriminate.
Defined.

(** The example catalogue with [type] given as the empty string. *)
Lemma present_empty_type_witness :
  present (always (Returns {[ "1_clicks" := [netdata; cpanel] ]}))
    (self_of {| params := {[ "type" := "" ]} |}) tt
  = (inr (SystemExit 0), tt,
     [ListRequest {| token := None |};
      ExitJson
        {| changed := Some false;
           msg := PStr "Current 1-Click applications";
           one_clicks := Some [netdata; cpanel];
           error := None; exception := None |}]).
Proof.
  instance_of
    (present_empty_type
       (always (Returns {[ "1_clicks" := [netdata; cpanel] ]}))
       (self_of {| params := {[ "type" := "" ]} |}) tt
       {[ "1_clicks" := [netdata; cpanel] ]} tt [netdata; cpanel]);
    [reflexivity | reflexivity | discriminate | reflexivity].
Defined.

(** The message of the run filtered by [droplet]. *)
Lemma present_msg_documented_witness :
  ∃ (k : kwargs) (s : string),
    printed
      (present (always (Returns {[ "1_clicks" := [netdata; cpanel] ]}))
         (self_of {| params := {[ "type" := "droplet" ]} |}) tt).2 = [k]
    ∧ msg k = PStr s
    ∧ s ∈ RETURN_msg_samples.
Proof.
  apply (present_msg_documented
           (always (Returns {[ "1_clicks" := [netdata; cpanel] ]}))
           (self_of {| params := {[ "type" := "droplet" ]} |}) tt
           {[ "1_clicks" := [netdata; cpanel] ]} tt);
    [reflexivity | reflexivity |].
  apply list_elem_of_here.
Defined.

(** The constructor on a module with [state] being ["present"]. *)
Lemma init_state_present_witness :
  ∃ (e : exn) (ev : list event),
    __init__ (counting (Returns {[ "1_clicks" := [netdata] ]}))
      {| params := {[ "state" := "present"; "token" := "secret" ]} |} 0
    = (inr e, 1,
       ClientCreated {| token := Some "secret" |}
       :: ListRequest {| token := Some "secret" |} :: ev)
    ∧ ∃ (code : Z) (k : kwargs),
        e = SystemExit code
        ∧ (code = 0 ∨ code = 1)%Z
        ∧ ev = [if decide (code = 0%Z) then ExitJson k else FailJson k].
Proof.
  destruct (init_state_present
              (counting (Returns {[ "1_clicks" := [netdata] ]}))
              {| params := {[ "state" := "present"; "token" := "secret" ]} |}
              0) as (e & ev & Hrun & Hhandled & _); [reflexivity |].
  exists e, ev. split; [exact Hrun |]. apply Hhandled. reflexivity.
Defined.

(** The constructor on a module with [state] being ["absent"]. *)
Lemma init_state_not_present_witness :
  ∃ self,
    __init__ (counting (Returns {[ "1_clicks" := [netdata] ]}))
      {| params := {[ "state" := "absent" ]} |} 0
    = (inl self, 0, [ClientCreated (client self)])
    ∧ module self = {| params := {[ "state" := "absent" ]} |}
    ∧ client self = {| token := None |}
    ∧ state self = Some "absent"
    ∧ type self = None.
Proof.
  destruct (init_state_not_present
              (counting (Returns {[ "1_clicks" := [netdata] ]}))
              {| params := {[ "state" := "absent" ]} |} 0)
    as (self & H); [discriminate |].
  exists self. exact H.
Defined.

(** Both libraries are missing: [azure.core.exceptions] is reported. *)
Lemma main_import_failure_witness :
  main (always (Returns {[ "1_clicks" := [netdata] ]}))
    import_failure_message
    (ImportFailed "No module named 'azure'")
    (ImportFailed "No module named 'pydo'")
    {| params := {[ "state" := "present" ]} |} tt
  = (inr (SystemExit 1), tt,
     [FailJson
        {| changed := None;
           msg := PStr (import_failure_message "azure.core.exceptions");
           one_clicks := None; error := None;
           exception := Some (Some "No module named 'azure'") |}]).
Proof.
  apply main_import_failure. left. split; reflexivity.
Defined.

(** Two objects for the filter [kubernetes], with different tokens and
    states. *)
Lemma present_depends_on_type_witness :
  let serve := always (Returns {[ "1_clicks" := [netdata; cpanel] ]}) in
  let self1 :=
    self_of {| params := {[ "type" := "kubernetes"; "token" := "one" ]} |} in
  let self2 :=
    self_of {| params := {[ "type" := "kubernetes"; "state" := "present" ]} |} in
  (present serve self1 tt).1.1 = (present serve self2 tt).1.1
  ∧ printed (present serve self1 tt).2 = printed (present serve self2 tt).2.
Proof.
  intros serve self1 self2.
  apply (present_depends_on_type serve self1 self2 tt tt); reflexivity.
Defined.
